(** * The Cascade API client ([cascade/cascade.py]) as a shallow embedding

    The client is a single Python class, [CascadeAPI], whose methods wrap one
    HTTP request each.  The embedding keeps the shape of the source:

    - Python values that travel in request bodies are [pyval]s, dictionaries
      are [gmap string pyval] (dictionary equality in Python ignores order);
    - the object ([self.session], [self.url]) lives in the state that every
      method threads, together with the process-wide logging configuration
      and the log of requests handed to the transport;
    - exceptions are the [Raise] outcome of a small state-and-exception monad
      whose state survives a raise, as in Python;
    - the [requests] library is the boundary of the model: a session is its
      header dictionary, and the remote portal is a function from the requests
      seen so far and the current request to an optional response.  A request
      is what the client hands to the session (method, URL, query, headers,
      JSON value); its bytes on the wire, cookies, redirects and time-outs
      belong to the library and stay outside;
    - the state also keeps a ghost log of the endpoints with which the three
      helpers are entered, so that statements can speak of the arguments the
      public methods pass to them. *)

From Stdlib Require Import ZArith Ascii String.
From stdpp Require Import base gmap strings list fin_maps.

Local Open Scope Z_scope.
Local Open Scope string_scope.
Local Open Scope list_scope.

(** ** Python values *)

(** The values the client places in JSON bodies.  Floats are left out. *)
#[warnings="-register-all"]
Inductive pyval :=
  | PNone
  | PBool (b : bool)
  | PInt (z : Z)
  | PStr (s : string)
  | PList (l : list pyval)
  | PDict (d : gmap string pyval).

(** Truth value of [if v:] in Python. *)
Definition truthy (v : pyval) : bool :=
  match v with
  | PNone => false
  | PBool b => b
  | PInt z => negb (Z.eqb z 0)
  | PStr s => negb (String.eqb s "")
  | PList l => negb (Nat.eqb (length l) 0)
  | PDict d => negb (Nat.eqb (size d) 0)
  end.

(** ** Case-insensitive header dictionaries

    [requests] keeps session and request headers in a [CaseInsensitiveDict]:
    the store is keyed by the lower-cased name and remembers the name as it
    was last written. Only ASCII letters are folded here. *)

Definition lower_ascii (c : ascii) : ascii :=
  let n := N_of_ascii c in
  if (N.leb 65 n && N.leb n 90)%N then ascii_of_N (n + 32) else c.

Fixpoint lower (s : string) : string :=
  match s with
  | EmptyString => EmptyString
  | String c s' => String (lower_ascii c) (lower s')
  end.

Module CaseInsensitiveDict.
Abbreviation t := (gmap string (string * string)).

(** [d[key] = value] *)
Definition setitem (key value : string) (d : t) : t :=
  <[lower key := (key, value)]> d.

(** [d.get(key)] *)
Definition get (key : string) (d : t) : option string :=
  snd <$> d !! lower key.

(** [d.update({key: value})] with a one-entry dictionary. *)
Definition update1 (key value : string) (d : t) : t := setitem key value d.
End CaseInsensitiveDict.

(** ** Requests, responses, the client object and the world *)

Inductive verb := GET | POST | DELETE.

Record Request := {
  req_method : verb;
  req_url : string;
  req_params : gmap string pyval;      (* query parameters *)
  req_headers : CaseInsensitiveDict.t;
  req_json : pyval                     (* [json=]; [PNone] sends no body *)
}.

Record Response := {
  status_code : Z;
  text : string
}.

Record Session := { headers : CaseInsensitiveDict.t }.

(** The instance attributes of [CascadeAPI]. *)
Record CascadeAPI := {
  session : Session;
  url : string
}.

(** Process-wide debugging switches touched by [__init__]. *)
Record Logging := {
  http_debuglevel : Z;            (* http.client.HTTPConnection.debuglevel *)
  root_configured : bool;         (* logging.basicConfig() was called *)
  root_level : Z;                 (* logging.getLogger().level *)
  requests_log_level : Z;         (* "requests.packages.urllib3" logger *)
  requests_log_propagate : bool
}.

Definition DEBUG : Z := 10.

Record State := {
  obj : CascadeAPI;                   (* the object [self] refers to *)
  logging : Logging;
  sent : list Request;                (* requests handed to the transport *)
  calls : list (verb * string)        (* endpoints received by the helpers *)
}.

Inductive exn :=
  | IndexError
  | ConnectionError
  | HTTPError (response : Response)
  | JSONDecodeError.

Inductive result (A : Type) :=
  | Return (a : A)
  | Raise (e : exn).
Arguments Return {A} a.
Arguments Raise {A} e.

(** ** State and exception monad

    A computation maps the state to an outcome and the state it leaves; a
    raise keeps the state reached so far. *)

Definition M (A : Type) : Type := State → result A * State.

#[global] Instance M_ret : MRet M := λ A a st, (Return a, st).
#[global] Instance M_bind : MBind M := λ A B f m st,
  match m st with
  | (Return a, st') => f a st'
  | (Raise e, st') => (Raise e, st')
  end.

Definition raise {A} (e : exn) : M A := λ st, (Raise e, st).

Definition get_self : M CascadeAPI := λ st, (Return (obj st), st).

Definition set_obj (o : CascadeAPI) : M unit := λ st,
  (Return tt,
   {| obj := o; logging := logging st; sent := sent st; calls := calls st |}).

Definition set_logging (l : Logging) : M unit := λ st,
  (Return tt,
   {| obj := obj st; logging := l; sent := sent st; calls := calls st |}).

(** Ghost step: the helper [v] was entered with this [endpoint] argument. *)
Definition log_call (v : verb) (endpoint : string) : M unit := λ st,
  (Return tt,
   {| obj := obj st; logging := logging st; sent := sent st;
      calls := calls st ++ [(v, endpoint)] |}).

(** [self.session = s] *)
Definition set_session (s : Session) : M unit :=
  self ← get_self;
  set_obj {| session := s; url := url self |}.

(** [self.url = u] *)
Definition set_url (u : string) : M unit :=
  self ← get_self;
  set_obj {| session := session self; url := u |}.

(** [self.session.headers.update({key: value})] *)
Definition session_headers_update (key value : string) : M unit :=
  self ← get_self;
  set_obj {| session :=
               {| headers :=
                    CaseInsensitiveDict.update1 key value
                      (headers (session self)) |};
             url := url self |}.

(** [s[0]]: the one-character string at index 0. *)
Definition index0 (s : string) : M string :=
  match s with
  | EmptyString => raise IndexError
  | String c _ => mret (String c EmptyString)
  end.

(** The public interface: one constructor per public method, with its
    arguments. *)
Inductive call :=
  | GetAllCustomers
  | GetCustomer (primarydomain : string)
  | GetCustomerTenant (primarydomain : string)
  | GetCustomerMca (primarydomain : string)
  | GetCustomerSubscriptions (primarydomain : string)
  | GetCustomerSubscription (primarydomain productcode : string)
  | GetCancellationRequest (primarydomain productcode : string)
  | CreateCustomer (primarydomain customername reference head_office_address
      isactive eu_vat_number iso_country_code admin_password billing_address
      contacts : pyval)
  | CreateTenant (customer tenantid : string)
  | CreateSubscription (customer : string) (productinformation : pyval)
  | UpdateSubscription (customer productcode : string) (newqty : pyval)
  | UpgradeSubscription (customer oldproductcode : string)
      (newproductcode : pyval)
  | SubmitCancellationRequest (customer productcode : string)
      (daterequested : pyval)
  | AbortCancellationRequest (customer productcode : string)
  | AcceptMca (customer : string)
      (dateaccepted firstname surname phone email line1 postcode
       countryid : pyval)
  | MakeAddress (line1 city postcode line2 state : pyval)
  | MakeContact (firstname lastname email phone contacttype primary : pyval).

(** What a computation adds to the two logs. *)
Definition issued {A} (m : M A) (st : State) : list Request :=
  drop (length (sent st)) (sent (m st).2).

Definition entered {A} (m : M A) (st : State) : list (verb * string) :=
  drop (length (calls st)) (calls (m st).2).

Section Client.

(** Headers of a fresh [requests.session()] (User-Agent, Accept, ...). *)
Variable default_headers : CaseInsensitiveDict.t.

(** The portal behind the transport: its answer to a request, given the
    requests it has seen before; [None] when no response arrives. *)
Variable remote : list Request → Request → option Response.

(** The JSON decoder behind [Response.json()]. *)
Variable json_loads : string → option pyval.

(** *** The [requests] boundary *)

(** [requests.session()] *)
Definition requests_session : M Session :=
  mret {| headers := default_headers |}.

(** [self.session.request(v, u, params=params, json=json)]: the request
    carries the session headers; it is recorded and handed to the portal. *)
Definition session_request (v : verb) (u : string)
    (params : gmap string pyval) (json : pyval) : M Response := λ st,
  let req := {| req_method := v; req_url := u; req_params := params;
                req_headers := headers (session (obj st));
                req_json := json |} in
  let st' := {| obj := obj st; logging := logging st;
                sent := sent st ++ [req]; calls := calls st |} in
  match remote (sent st) req with
  | Some r => (Return r, st')
  | None => (Raise ConnectionError, st')
  end.

Definition session_get (u : string) (params : gmap string pyval) : M Response :=
  session_request GET u params PNone.

Definition session_post (u : string) (json : pyval) : M Response :=
  session_request POST u ∅ json.

Definition session_delete (u : string) : M Response :=
  session_request DELETE u ∅ PNone.

(** [response.raise_for_status()] of [requests]: a client error for a status
    in 400..499, a server error for one in 500..599, nothing otherwise. *)
Definition raise_for_status (response : Response) : M unit :=
  let s := status_code response in
  if Z.leb 400 s && Z.ltb s 500 then raise (HTTPError response)
  else if Z.leb 500 s && Z.ltb s 600 then raise (HTTPError response)
  else mret tt.

(** [response.json()] *)
Definition json (response : Response) : M pyval :=
  match json_loads (text response) with
  | Some v => mret v
  | None => raise JSONDecodeError
  end.

(** *** [CascadeAPI] *)

Definition default_url : string := "https://api.cascadeportal.com".

Definition __init__ (username password url : string) (debug : bool) : M unit :=
  _ ← (if debug then
         set_logging {| http_debuglevel := 1;
                        root_configured := true;
                        root_level := DEBUG;
                        requests_log_level := DEBUG;
                        requests_log_propagate := true |}
       else mret tt);
  s ← requests_session;
  _ ← set_session s;
  _ ← session_headers_update "X-Username" username;
  _ ← session_headers_update "X-Password" password;
  _ ← session_headers_update "Content-Type" "application/json; charset=utf-8";
  set_url url.

Definition __sendget (endpoint : string) (params : gmap string pyval)
    : M Response :=
  _ ← log_call GET endpoint;
  c ← index0 endpoint;
  let endpoint := if negb (String.eqb c "/") then "/" +:+ endpoint
                  else endpoint in
  self ← get_self;
  response ← session_get (url self +:+ endpoint) params;
  _ ← raise_for_status response;
  mret response.

Definition __sendpost (endpoint : string) (data : pyval) : M Response :=
  _ ← log_call POST endpoint;
  c ← index0 endpoint;
  let endpoint := if negb (String.eqb c "/") then "/" +:+ endpoint
                  else endpoint in
  self ← get_self;
  response ← session_post (url self +:+ endpoint) data;
  _ ← raise_for_status response;
  mret response.

Definition __senddelete (endpoint : string) : M Response :=
  _ ← log_call DELETE endpoint;
  c ← index0 endpoint;
  let endpoint := if negb (String.eqb c "/") then "/" +:+ endpoint
                  else endpoint in
  self ← get_self;
  response ← session_delete (url self +:+ endpoint);
  _ ← raise_for_status response;
  mret response.

Definition get_all_customers : M pyval :=
  r ← __sendget "/Customers" ∅;
  json r.

Definition get_customer (primarydomain : string) : M pyval :=
  r ← __sendget ("/Customers/" +:+ primarydomain) ∅;
  json r.

Definition get_customer_tenant (primarydomain : string) : M pyval :=
  r ← __sendget
        ("/customers/" +:+ primarydomain +:+ "/MicrosoftTenantAssociation") ∅;
  json r.

Definition get_customer_mca (primarydomain : string) : M pyval :=
  r ← __sendget ("/customers/" +:+ primarydomain +:+ "/McaAcceptance") ∅;
  json r.

Definition get_customer_subscriptions (primarydomain : string) : M pyval :=
  r ← __sendget ("/customers/" +:+ primarydomain +:+ "/subscriptions") ∅;
  json r.

Definition get_customer_subscription (primarydomain productcode : string)
    : M pyval :=
  r ← __sendget
        ("/customers/" +:+ primarydomain +:+ "/subscriptions/"
           +:+ productcode) ∅;
  json r.

Definition get_cancellation_request (primarydomain productcode : string)
    : M pyval :=
  r ← __sendget
        ("/customers/" +:+ primarydomain +:+ "/subscriptions/"
           +:+ productcode +:+ "/cancellation-request") ∅;
  json r.

(** The keyword defaults of the source are [isactive = True], the empty
    string for the three string options, [{}] and [[]]. *)
Definition create_customer
    (primarydomain customername reference head_office_address isactive
     eu_vat_number iso_country_code admin_password billing_address
     contacts : pyval) : M unit :=
  let data : gmap string pyval :=
    {[ "PrimaryDomain" := primarydomain;
       "Name" := customername;
       "Reference" := reference;
       "IsActive" := isactive;
       "HeadOfficeAddress" := head_office_address ]} in
  let data := if truthy eu_vat_number
              then <["EUVATNumber" := eu_vat_number]> data else data in
  let data := if truthy iso_country_code
              then <["IsoCountryCode" := iso_country_code]> data else data in
  let data := if truthy admin_password
              then <["AdministratorPassword" := admin_password]> data
              else data in
  let data := if truthy billing_address
              then <["BillingAddress" := billing_address]> data else data in
  let data := if truthy contacts
              then <["Contacts" := contacts]> data else data in
  _ ← __sendpost "/customers" (PDict data);
  mret tt.

Definition create_tenant (customer tenantid : string) : M unit :=
  _ ← __sendpost
        ("/customers/" +:+ customer +:+ "/MicrosoftTenant/" +:+ tenantid
           +:+ ".onmicrosoft.com") PNone;
  mret tt.

Definition create_subscription (customer : string) (productinformation : pyval)
    : M unit :=
  _ ← __sendpost ("/customers/" +:+ customer +:+ "/subscriptions")
        productinformation;
  mret tt.

Definition update_subscription (customer productcode : string) (newqty : pyval)
    : M unit :=
  _ ← __sendpost
        ("/customers/" +:+ customer +:+ "/subscriptions/" +:+ productcode)
        (PDict {[ "Quantity" := newqty ]});
  mret tt.

Definition upgrade_subscription (customer oldproductcode : string)
    (newproductcode : pyval) : M unit :=
  _ ← __sendpost
        ("/customers/" +:+ customer +:+ "/subscriptions/" +:+ oldproductcode)
        (PDict {[ "ProductCode" := newproductcode ]});
  mret tt.

Definition submit_cancellation_request (customer productcode : string)
    (daterequested : pyval) : M unit :=
  _ ← __sendpost
        ("/customers/" +:+ customer +:+ "/subscriptions/" +:+ productcode
           +:+ "/cancellation-request")
        (PDict {[ "CancellationDateRequested" := daterequested ]});
  mret tt.

Definition abort_cancellation_request (customer productcode : string)
    : M unit :=
  _ ← __senddelete
        ("/customers/" +:+ customer +:+ "/subscriptions/" +:+ productcode
           +:+ "/cancellation-request");
  mret tt.

Definition accept_mca (customer : string)
    (dateaccepted firstname surname phone email line1 postcode
     countryid : pyval) : M unit :=
  let data : gmap string pyval :=
    {[ "DateAccepted" := dateaccepted;
       "FirstName" := firstname;
       "Surname" := surname;
       "PhoneNumber" := phone;
       "EmailAddress" := email;
       "AddressLine1" := line1;
       "Postcode" := postcode;
       "CountryId" := countryid;
       "AgreementUrl" := PStr "https://aka.ms/customeragreement" ]} in
  _ ← __sendpost ("/customers/" +:+ customer +:+ "/McaAcceptance")
        (PDict data);
  mret tt.

(** [line2] and [state] default to the empty string in the source. *)
Definition make_address (line1 city postcode line2 state : pyval) : M pyval :=
  let data : gmap string pyval :=
    {[ "Line1" := line1;
       "City" := city;
       "Postcode" := postcode ]} in
  let data := if truthy line2 then <["Line2" := line2]> data else data in
  let data := if truthy state then <["State" := state]> data else data in
  mret (PDict data).

Definition make_contact (firstname lastname email phone contacttype
    primary : pyval) : M pyval :=
  mret (PDict
    {[ "FirstName" := firstname;
       "LastName" := lastname;
       "EmailAddress" := email;
       "PhoneNumber" := phone;
       "ContactType" := contacttype;
       "IsPrimaryContact" := primary ]}).

(** A method without [return] yields [None]. *)
Definition returning_none (m : M unit) : M pyval :=
  _ ← m; mret PNone.

(** A call of a public method on the client. *)
Definition run (c : call) : M pyval :=
  match c with
  | GetAllCustomers => get_all_customers
  | GetCustomer d => get_customer d
  | GetCustomerTenant d => get_customer_tenant d
  | GetCustomerMca d => get_customer_mca d
  | GetCustomerSubscriptions d => get_customer_subscriptions d
  | GetCustomerSubscription d p => get_customer_subscription d p
  | GetCancellationRequest d p => get_cancellation_request d p
  | CreateCustomer d n r h a v i pw b cs =>
      returning_none (create_customer d n r h a v i pw b cs)
  | CreateTenant c t => returning_none (create_tenant c t)
  | CreateSubscription c pi => returning_none (create_subscription c pi)
  | UpdateSubscription c p q => returning_none (update_subscription c p q)
  | UpgradeSubscription c o n => returning_none (upgrade_subscription c o n)
  | SubmitCancellationRequest c p d =>
      returning_none (submit_cancellation_request c p d)
  | AbortCancellationRequest c p =>
      returning_none (abort_cancellation_request c p)
  | AcceptMca c d f s ph e l pc ci =>
      returning_none (accept_mca c d f s ph e l pc ci)
  | MakeAddress l1 c p l2 s => make_address l1 c p l2 s
  | MakeContact f l e p t pr => make_contact f l e p t pr
  end.

(** A request method of the three helpers, chosen by verb. *)
Definition helper (v : verb) (endpoint : string)
    (params : gmap string pyval) (data : pyval) : M Response :=
  match v with
  | GET => __sendget endpoint params
  | POST => __sendpost endpoint data
  | DELETE => __senddelete endpoint
  end.

End Client.

(** ** Concrete worlds for examples *)

Definition blank_object : CascadeAPI :=
  {| session := {| headers := ∅ |}; url := "" |}.

Definition quiet_logging : Logging :=
  {| http_debuglevel := 0; root_configured := false; root_level := 30;
     requests_log_level := 0; requests_log_propagate := true |}.

Definition fresh_state : State :=
  {| obj := blank_object; logging := quiet_logging; sent := []; calls := [] |}.

(** A portal answering every request with the same response. *)
Definition constant_remote (r : Response)
    : list Request → Request → option Response :=
  λ _ _, Some r.

Definition started (username password : string) (debug : bool) : State :=
  (__init__ ∅ username password default_url debug fresh_state).2.

(** ** Vocabulary of the statements *)

(** The request a helper builds for a non-empty endpoint [String c e]. *)
Definition built_request (o : CascadeAPI) (v : verb) (c : ascii) (e : string)
    (params : gmap string pyval) (data : pyval) : Request :=
  {| req_method := v;
     req_url := url o +:+
       (if Ascii.eqb c "/" then String c e else "/" +:+ String c e);
     req_params := match v with GET => params | _ => ∅ end;
     req_headers := headers (session o);
     req_json := match v with POST => data | _ => PNone end |}.

(** The test of [raise_for_status], as one boolean. *)
Definition error_status (r : Response) : bool :=
  Z.leb 400 (status_code r) && Z.ltb (status_code r) 600.

(** The state a helper leaves after sending for the endpoint ["/" ++ rest]. *)
Definition after_request (st : State) (v : verb) (rest : string)
    (data : pyval) : State :=
  {| obj := obj st; logging := logging st;
     sent := sent st ++ [built_request (obj st) v "/" rest ∅ data];
     calls := calls st ++ [(v, String "/" rest)] |}.

(** From the portal's answer to the outcome of a method; [post] treats a
    response that [raise_for_status] lets through. *)
Definition outcome (post : Response → result pyval) (o : option Response)
    : result pyval :=
  match o with
  | None => Raise ConnectionError
  | Some r => if error_status r then Raise (HTTPError r) else post r
  end.

(** [Response.json()] as an outcome. *)
Definition decoded (json_loads : string → option pyval) (r : Response)
    : result pyval :=
  match json_loads (text r) with
  | Some v => Return v
  | None => Raise JSONDecodeError
  end.

Definition not_found : Response :=
  {| status_code := 404; text := "no such customer" |}.

Definition not_modified : Response := {| status_code := 304; text := "" |}.

(** A decoder that knows one document, for the examples. *)
Definition toy_json_loads (s : string) : option pyval :=
  if String.eqb s "[1, 2]" then Some (PList [PInt 1; PInt 2]) else None.

(** The two methods that only build a dictionary. *)
Definition is_pure (c : call) : bool :=
  match c with
  | MakeAddress _ _ _ _ _ | MakeContact _ _ _ _ _ _ => true
  | _ => false
  end.

(** A caller making the calls [cs] one after the other, going on after an
    exception. *)
Fixpoint run_all (remote : list Request → Request → option Response)
    (json_loads : string → option pyval) (cs : list call) (st : State)
    : State :=
  match cs with
  | [] => st
  | c :: cs' => run_all remote json_loads cs' (run remote json_loads c st).2
  end.

(** The three fixed headers, read the way a header dictionary is read. *)
Definition carries_credentials (username password : string) (req : Request)
    : Prop :=
  CaseInsensitiveDict.get "X-Username" (req_headers req) = Some username ∧
  CaseInsensitiveDict.get "X-Password" (req_headers req) = Some password ∧
  CaseInsensitiveDict.get "Content-Type" (req_headers req)
    = Some "application/json; charset=utf-8".

(** Two states that differ at most in the logging configuration. *)
Definition same_but_logging (st1 st2 : State) : Prop :=
  obj st1 = obj st2 ∧ sent st1 = sent st2 ∧ calls st1 = calls st2.

(** The seven methods that read with GET and decode the answer. *)
Definition is_get (c : call) : bool :=
  match c with
  | GetAllCustomers | GetCustomer _ | GetCustomerTenant _ | GetCustomerMca _
  | GetCustomerSubscriptions _ | GetCustomerSubscription _ _
  | GetCancellationRequest _ _ => true
  | _ => false
  end.

(** What a method makes of a response that [raise_for_status] lets through:
    the GET methods decode it, the others return [None]. *)
Definition finish (json_loads : string → option pyval) (c : call)
    : Response → result pyval :=
  if is_get c then decoded json_loads else λ _, Return PNone.

(** [endpoint[0] == '/'] on a non-empty endpoint. *)
Definition starts_with_slash (s : string) : bool :=
  match s with
  | EmptyString => false
  | String c _ => Ascii.eqb c "/"
  end.

(** The logging configuration that [__init__] installs under [debug]. *)
Definition debug_logging : Logging :=
  {| http_debuglevel := 1; root_configured := true; root_level := DEBUG;
     requests_log_level := DEBUG; requests_log_propagate := true |}.

(** A portal that never answers. *)
Definition silent_remote : list Request → Request → option Response :=
  λ _ _, None.

Definition ok_json : Response := {| status_code := 200; text := "[1, 2]" |}.

Definition ok_text : Response := {| status_code := 200; text := "done" |}.

Definition server_error : Response :=
  {| status_code := 503; text := "[1, 2]" |}.

(** Default headers of a session, for the examples. *)
Definition some_defaults : CaseInsensitiveDict.t :=
  CaseInsensitiveDict.setitem "User-Agent" "python-requests"
    (CaseInsensitiveDict.setitem "content-type" "text/plain" ∅).

(** * Properties *)

(** ** The three helpers *)

Lemma error_status_spec r :
  error_status r = true ↔ 400 ≤ status_code r < 600.
Proof.
  unfold error_status. rewrite andb_true_iff, Z.leb_le, Z.ltb_lt. tauto.
Qed.

Lemma raise_for_status_eq r st :
  raise_for_status r st =
    if error_status r then (Raise (HTTPError r), st) else (Return tt, st).
Proof.
  unfold raise_for_status, error_status.
  destruct (Z.leb_spec 400 (status_code r)), (Z.ltb_spec (status_code r) 500),
    (Z.leb_spec 500 (status_code r)), (Z.ltb_spec (status_code r) 600);
    simpl; try reflexivity; lia.
Qed.

Lemma first_char_test c :
  negb (String.eqb (String c EmptyString) "/") = negb (Ascii.eqb c "/").
Proof. simpl. by destruct (Ascii.eqb c "/"). Qed.

Ltac unfold_helper :=
  unfold __sendget, __sendpost, __senddelete, session_get, session_post,
    session_delete, session_request, index0, log_call, get_self, raise;
  unfold mbind, M_bind, mret, M_ret;
  cbn -[String.eqb String.append raise_for_status].

(** What a helper does with a non-empty endpoint, in one equation. *)
Lemma helper_nonempty remote v c e params data st :
  let req := built_request (obj st) v c e params data in
  let st' := {| obj := obj st; logging := logging st;
                sent := sent st ++ [req];
                calls := calls st ++ [(v, String c e)] |} in
  helper remote v (String c e) params data st =
    match remote (sent st) req with
    | None => (Raise ConnectionError, st')
    | Some r => if error_status r then (Raise (HTTPError r), st')
                else (Return r, st')
    end.
Proof.
  destruct v; unfold helper, built_request;
    unfold_helper; rewrite first_char_test;
    destruct (Ascii.eqb c "/"); cbn -[String.append];
    (destruct (remote _ _) as [r|]; [|reflexivity]);
    rewrite raise_for_status_eq; by destruct (error_status r).
Qed.

Lemma helper_empty remote v params data st :
  helper remote v "" params data st =
    (Raise IndexError,
     {| obj := obj st; logging := logging st; sent := sent st;
        calls := calls st ++ [(v, "")] |}).
Proof. by destruct v. Qed.

Lemma issued_snoc {A} (m : M A) st reqs :
  sent (m st).2 = sent st ++ reqs → issued m st = reqs.
Proof. unfold issued. intros ->. by rewrite drop_app_length. Qed.

Lemma issued_nil {A} (m : M A) st :
  sent (m st).2 = sent st → issued m st = [].
Proof. unfold issued. intros ->. by rewrite drop_all. Qed.

Lemma helper_issued remote v c e params data st :
  issued (helper remote v (String c e) params data) st =
    [built_request (obj st) v c e params data].
Proof.
  apply issued_snoc. rewrite helper_nonempty.
  destruct (remote _ _) as [r|]; [by destruct (error_status r) | done].
Qed.

(** C1, as the code has it: when a helper has sent a request and the portal
    answered it with response [r], the helper raises [HTTPError] carrying [r]
    (its status code and its body) exactly when the status is in 400..599, and
    returns [r] otherwise; so a 2xx status never raises and a 404 always
    does, on the GET, POST and DELETE paths alike. *)
Theorem helper_raises_on_error_status
    remote v endpoint params data st req r :
  issued (helper remote v endpoint params data) st = [req] →
  remote (sent st) req = Some r →
  let out := (helper remote v endpoint params data st).1 in
  (400 ≤ status_code r < 600 → out = Raise (HTTPError r)) ∧
  (¬ 400 ≤ status_code r < 600 → out = Return r) ∧
  (200 ≤ status_code r < 300 → out = Return r) ∧
  (status_code r = 404 →
     out = Raise (HTTPError r) ∧
     ∀ resp, out = Raise (HTTPError resp) →
       status_code resp = 404 ∧ text resp = text r).
Proof.
  destruct endpoint as [|c e].
  { rewrite issued_nil; [done | by rewrite helper_empty]. }
  rewrite helper_issued. intros [= <-] Hr. rewrite helper_nonempty, Hr.
  pose proof (error_status_spec r) as Hs.
  destruct (error_status r); simpl.
  - assert (400 ≤ status_code r < 600) as Herr by (by apply Hs).
    split; [done | split; [done | split; [lia |]]].
    intros H404. split; [done |]. by intros resp [= <-].
  - assert (¬ 400 ≤ status_code r < 600) as Hok by (by intros ?%Hs).
    split; [done | split; [done | split; [done | lia]]].
Qed.

Lemma helper_raises_on_error_status_witness :
  let st := started "u" "p" false in
  let req := built_request (obj st) DELETE "/" "customers/x.com" ∅ PNone in
  issued (helper (constant_remote not_found) DELETE "/customers/x.com" ∅ PNone)
    st = [req] ∧
  constant_remote not_found (sent st) req = Some not_found ∧
  (helper (constant_remote not_found) DELETE "/customers/x.com" ∅ PNone st).1
    = Raise (HTTPError not_found).
Proof.
  intros st req.
  assert (issued
            (helper (constant_remote not_found) DELETE "/customers/x.com" ∅
               PNone) st = [req]) as Hsent
    by (vm_compute; reflexivity).
  assert (constant_remote not_found (sent st) req = Some not_found) as Hanswer
    by reflexivity.
  split; [exact Hsent | split; [exact Hanswer |]].
  refine (proj1 (helper_raises_on_error_status (constant_remote not_found)
                   DELETE "/customers/x.com" ∅ PNone st req not_found
                   Hsent Hanswer) _).
  simpl. lia.
Defined.

(** C1 as stated fails: a 304 answer is not 2xx, yet [__sendget] returns it
    and raises nothing. *)
Lemma non_2xx_without_error :
  let st := started "u" "p" false in
  let req := built_request (obj st) GET "/" "Customers" ∅ PNone in
  issued (__sendget (constant_remote not_modified) "/Customers" ∅) st
    = [req] ∧
  constant_remote not_modified (sent st) req = Some not_modified ∧
  ¬ 200 ≤ status_code not_modified < 300 ∧
  (__sendget (constant_remote not_modified) "/Customers" ∅ st).1
    = Return not_modified ∧
  (__sendget (constant_remote not_modified) "/Customers" ∅ st).1
    ≠ Raise (HTTPError not_modified).
Proof.
  intros st req.
  split; [by vm_compute |]. split; [done |]. split; [simpl; lia |].
  assert ((__sendget (constant_remote not_modified) "/Customers" ∅ st).1
            = Return not_modified) as -> by (by vm_compute).
  done.
Qed.

(** ** The public methods *)

Lemma bind_eq {A B} (m : M A) (f : A → M B) st :
  (m ≫= f) st =
    match m st with
    | (Return a, st') => f a st'
    | (Raise e, st') => (Raise e, st')
    end.
Proof. reflexivity. Qed.

Lemma sendget_slash remote json_loads rest st :
  (r ← __sendget remote (String "/" rest) ∅; json json_loads r) st =
    (outcome (decoded json_loads)
       (remote (sent st) (built_request (obj st) GET "/" rest ∅ PNone)),
     after_request st GET rest PNone).
Proof.
  rewrite bind_eq.
  change (__sendget remote (String "/" rest) ∅)
    with (helper remote GET (String "/" rest) ∅ PNone).
  rewrite helper_nonempty. unfold after_request, outcome, decoded, json.
  destruct (remote _ _) as [r|]; [|done].
  destruct (error_status r); [done|]. by destruct (json_loads _).
Qed.

Lemma sendpost_slash remote rest data st :
  returning_none (_ ← __sendpost remote (String "/" rest) data; mret tt) st =
    (outcome (λ _, Return PNone)
       (remote (sent st) (built_request (obj st) POST "/" rest ∅ data)),
     after_request st POST rest data).
Proof.
  unfold returning_none. rewrite !bind_eq.
  change (__sendpost remote (String "/" rest) data)
    with (helper remote POST (String "/" rest) ∅ data).
  rewrite helper_nonempty. unfold after_request, outcome.
  destruct (remote _ _) as [r|]; [|done]. by destruct (error_status r).
Qed.

Lemma senddelete_slash remote rest st :
  returning_none (_ ← __senddelete remote (String "/" rest); mret tt) st =
    (outcome (λ _, Return PNone)
       (remote (sent st) (built_request (obj st) DELETE "/" rest ∅ PNone)),
     after_request st DELETE rest PNone).
Proof.
  unfold returning_none. rewrite !bind_eq.
  change (__senddelete remote (String "/" rest))
    with (helper remote DELETE (String "/" rest) ∅ PNone).
  rewrite helper_nonempty. unfold after_request, outcome.
  destruct (remote _ _) as [r|]; [|done]. by destruct (error_status r).
Qed.

(** A method that is not one of the two pure helpers enters one helper with
    an endpoint beginning with a slash, sends one request, and turns the
    portal's answer into its outcome. *)
Lemma run_network remote json_loads c :
  is_pure c = false →
  ∃ v rest data post,
    (∀ r, post r ≠ Raise IndexError) ∧
    ∀ st, run remote json_loads c st =
      (outcome post
         (remote (sent st) (built_request (obj st) v "/" rest ∅ data)),
       after_request st v rest data).
Proof.
  destruct c; simpl; intros Hpure; try discriminate Hpure;
    first
      [ eexists GET, _, PNone, (decoded json_loads);
        split; [intros r; unfold decoded; by destruct (json_loads _) |];
        intros st; apply sendget_slash
      | eexists POST, _, _, (λ _, Return PNone);
        split; [done |]; intros st; apply sendpost_slash
      | eexists DELETE, _, PNone, (λ _, Return PNone);
        split; [done |]; intros st; apply senddelete_slash ].
Qed.

(** The two pure helpers return a value and leave the state alone. *)
Lemma run_pure remote json_loads c :
  is_pure c = true → ∃ v, ∀ st, run remote json_loads c st = (Return v, st).
Proof.
  destruct c; simpl; intros Hpure; try discriminate Hpure;
    eexists; intros st; reflexivity.
Qed.

Lemma run_cases remote json_loads c :
  (∃ v, ∀ st, run remote json_loads c st = (Return v, st)) ∨
  (∃ v rest data post,
     (∀ r, post r ≠ Raise IndexError) ∧
     ∀ st, run remote json_loads c st =
       (outcome post
          (remote (sent st) (built_request (obj st) v "/" rest ∅ data)),
        after_request st v rest data)).
Proof.
  destruct (is_pure c) eqn:Hpure.
  - left. by apply run_pure.
  - right. by apply run_network.
Qed.

(** X1: each method other than the two pure helpers calls the session
    ([get], [post] or [delete]) exactly once, handing it one request, whatever
    the session then answers; the two pure helpers never call it.  The client
    itself repeats nothing. *)
Lemma one_request_per_call remote json_loads c st :
  length (issued (run remote json_loads c) st)
    = if is_pure c then 0%nat else 1%nat.
Proof.
  destruct (is_pure c) eqn:Hpure.
  - destruct (run_pure remote json_loads c Hpure) as [v Hrun].
    rewrite issued_nil; [done | by rewrite Hrun].
  - destruct (run_network remote json_loads c Hpure)
      as (v & rest & data & post & _ & Hrun).
    by rewrite (issued_snoc _ _ [built_request (obj st) v "/" rest ∅ data])
      by (by rewrite Hrun).
Qed.

Lemma entered_snoc {A} (m : M A) st es :
  calls (m st).2 = calls st ++ es → entered m st = es.
Proof. unfold entered. intros ->. by rewrite drop_app_length. Qed.

Lemma entered_nil {A} (m : M A) st :
  calls (m st).2 = calls st → entered m st = [].
Proof. unfold entered. intros ->. by rewrite drop_all. Qed.

(** Normalisation on the non-empty endpoints: the path requested is the
    endpoint itself when it begins with a slash, and the endpoint behind one
    slash otherwise, for each of the three helpers. *)
Lemma helper_path remote v c e params data st :
  ∃ req, issued (helper remote v (String c e) params data) st = [req] ∧
    req_method req = v ∧
    req_url req = url (obj st) +:+
      (if Ascii.eqb c "/" then String c e else "/" +:+ String c e).
Proof. eexists. by rewrite helper_issued. Qed.

(** An endpoint that has been normalised is requested as it is: the slash is
    prepended once. *)
Lemma helper_path_idempotent remote v c e params data st :
  let path := if Ascii.eqb c "/" then String c e else "/" +:+ String c e in
  req_url <$> issued (helper remote v path params data) st
    = req_url <$> issued (helper remote v (String c e) params data) st.
Proof.
  intros path. subst path. rewrite (helper_issued remote v c e).
  destruct (Ascii.eqb c "/") eqn:Hc.
  - rewrite helper_issued. simpl. by rewrite Hc.
  - change ("/" +:+ String c e) with (String "/" (String c e)).
    rewrite helper_issued. simpl. by rewrite Hc.
Qed.

(** At the empty endpoint no helper requests the path ["/"]: the inspection
    of the first character raises [IndexError] and nothing is sent. *)
Lemma empty_endpoint_raises remote v params data st :
  (helper remote v "" params data st).1 = Raise IndexError ∧
  issued (helper remote v "" params data) st = [].
Proof.
  rewrite issued_nil; by rewrite helper_empty.
Qed.

(** C2, for the endpoints the helpers are written for, the non-empty ones:
    an endpoint that does not begin with a slash is requested as the base URL
    followed by one slash and the endpoint, one that begins with a slash as
    the base URL followed by the endpoint unchanged, whichever of the three
    helpers is used; the normalised endpoint begins with a slash and
    normalising it again changes nothing. *)
Theorem nonempty_endpoint_normalised remote endpoint params data st :
  endpoint ≠ "" →
  let path := if starts_with_slash endpoint then endpoint
              else "/" +:+ endpoint in
  (starts_with_slash endpoint = false →
     ∀ v, req_url <$> issued (helper remote v endpoint params data) st
          = [url (obj st) +:+ "/" +:+ endpoint]) ∧
  (starts_with_slash endpoint = true →
     ∀ v, req_url <$> issued (helper remote v endpoint params data) st
          = [url (obj st) +:+ endpoint]) ∧
  starts_with_slash path = true ∧
  (∀ v, req_url <$> issued (helper remote v path params data) st
        = req_url <$> issued (helper remote v endpoint params data) st).
Proof.
  destruct endpoint as [|c e]; [done |]. intros _. simpl starts_with_slash.
  intros path. split; [| split; [| split]].
  - intros Hc v. rewrite helper_issued. simpl. by rewrite Hc.
  - intros Hc v. rewrite helper_issued. simpl. by rewrite Hc.
  - subst path. by destruct (Ascii.eqb c "/") eqn:Hc; simpl.
  - intros v. apply helper_path_idempotent.
Qed.

Lemma nonempty_endpoint_normalised_witness :
  "customers" ≠ "" ∧
  starts_with_slash "customers" = false ∧
  req_url <$> issued
    (helper (constant_remote ok_text) DELETE "customers" ∅ PNone)
    (started "u" "p" false)
    = ["https://api.cascadeportal.com/customers"].
Proof.
  assert ("customers" ≠ "") as Hne by discriminate.
  split; [exact Hne |]. split; [reflexivity |].
  exact (proj1 (nonempty_endpoint_normalised (constant_remote ok_text)
                  "customers" ∅ PNone (started "u" "p" false) Hne)
           eq_refl DELETE).
Defined.

(** C2 as stated fails at the empty endpoint: it does not begin with a slash,
    yet each helper raises [IndexError] and the path ["/"] is not requested. *)
Lemma empty_endpoint_not_normalised :
  let st := started "u" "p" false in
  starts_with_slash "" = false ∧
  (__sendget (constant_remote ok_text) "" ∅ st).1 = Raise IndexError ∧
  (__sendpost (constant_remote ok_text) "" PNone st).1 = Raise IndexError ∧
  (__senddelete (constant_remote ok_text) "" st).1 = Raise IndexError ∧
  req_url <$> issued (__sendget (constant_remote ok_text) "" ∅) st
    ≠ [url (obj st) +:+ "/" +:+ ""].
Proof.
  intros st. split; [done |]. split; [done |]. split; [done |].
  split; [done |]. rewrite issued_nil; [discriminate | done].
Qed.

(** C10: whatever public method is called, every endpoint that reaches a
    helper is non-empty and begins with a slash, the call never raises
    [IndexError], and the URL requested is the base URL followed by the
    endpoint exactly as it was passed. *)
Theorem public_endpoints_begin_with_slash remote json_loads c st :
  let m := run remote json_loads c in
  Forall (λ ve, ve.2 ≠ "" ∧ ∃ rest, ve.2 = String "/" rest) (entered m st) ∧
  (m st).1 ≠ Raise IndexError ∧
  Forall2 (λ ve req, req_method req = ve.1 ∧
                     req_url req = url (obj st) +:+ ve.2)
    (entered m st) (issued m st).
Proof.
  intros m. subst m.
  destruct (run_cases remote json_loads c)
    as [[v Hrun] | (v & rest & data & post & Hpost & Hrun)].
  - rewrite entered_nil, issued_nil; rewrite ?Hrun; [|done..].
    simpl. split; [constructor | split; [done | constructor]].
  - rewrite (entered_snoc _ _ [(v, String "/" rest)]),
      (issued_snoc _ _ [built_request (obj st) v "/" rest ∅ data]);
      rewrite ?Hrun; [|done..].
    split; [| split].
    + constructor; [|constructor]. split; [done | by eexists].
    + simpl. unfold outcome. destruct (remote _ _) as [r|]; [|done].
      destruct (error_status r); [done | apply Hpost].
    + constructor; [|constructor]. done.
Qed.

Lemma run_obj remote json_loads c st :
  obj (run remote json_loads c st).2 = obj st.
Proof.
  destruct (run_cases remote json_loads c)
    as [[v Hrun] | (v & rest & data & post & _ & Hrun)]; by rewrite Hrun.
Qed.

Lemma run_all_obj remote json_loads cs st :
  obj (run_all remote json_loads cs st) = obj st.
Proof.
  revert st. induction cs as [|c cs IH]; intros st; simpl; [done |].
  by rewrite IH, run_obj.
Qed.

(** C9: a public operation leaves the stored base URL and session headers as
    they were, whether it returns or raises, and so does any sequence of
    them. *)
Theorem configuration_unchanged remote json_loads :
  (∀ c st,
     let st' := (run remote json_loads c st).2 in
     url (obj st') = url (obj st) ∧
     headers (session (obj st')) = headers (session (obj st))) ∧
  (∀ cs st,
     let st' := run_all remote json_loads cs st in
     url (obj st') = url (obj st) ∧
     headers (session (obj st')) = headers (session (obj st))).
Proof.
  split; intros; subst st'.
  - by rewrite run_obj.
  - by rewrite run_all_obj.
Qed.

(** ** Construction *)

Lemma init_state default_headers username password url debug st :
  let st' := (__init__ default_headers username password url debug st).2 in
  obj st' =
    {| session :=
         {| headers :=
              CaseInsensitiveDict.update1 "Content-Type"
                "application/json; charset=utf-8"
                (CaseInsensitiveDict.update1 "X-Password" password
                   (CaseInsensitiveDict.update1 "X-Username" username
                      default_headers)) |};
       url := url |} ∧
  sent st' = sent st ∧ calls st' = calls st.
Proof. by destruct debug. Qed.

Lemma init_headers default_headers username password :
  let h := CaseInsensitiveDict.update1 "Content-Type"
             "application/json; charset=utf-8"
             (CaseInsensitiveDict.update1 "X-Password" password
                (CaseInsensitiveDict.update1 "X-Username" username
                   default_headers)) in
  CaseInsensitiveDict.get "X-Username" h = Some username ∧
  CaseInsensitiveDict.get "X-Password" h = Some password ∧
  CaseInsensitiveDict.get "Content-Type" h
    = Some "application/json; charset=utf-8".
Proof.
  unfold CaseInsensitiveDict.get, CaseInsensitiveDict.update1,
    CaseInsensitiveDict.setitem.
  change (lower "X-Username") with "x-username".
  change (lower "X-Password") with "x-password".
  change (lower "Content-Type") with "content-type".
  split; [| split].
  - rewrite !lookup_insert_ne by done. by rewrite lookup_insert_eq.
  - rewrite lookup_insert_ne by done. by rewrite lookup_insert_eq.
  - by rewrite lookup_insert_eq.
Qed.

Lemma issued_headers remote json_loads c st :
  Forall (λ req, req_headers req = headers (session (obj st)))
    (issued (run remote json_loads c) st).
Proof.
  destruct (run_cases remote json_loads c)
    as [[v Hrun] | (v & rest & data & post & _ & Hrun)].
  - rewrite issued_nil; [constructor | by rewrite Hrun].
  - rewrite (issued_snoc _ _ [built_request (obj st) v "/" rest ∅ data]);
      [| by rewrite Hrun].
    by repeat constructor.
Qed.

(** C3: once the client is constructed with [username] and [password], every
    request issued by any public method, after any earlier calls, carries
    [X-Username] and [X-Password] with exactly those values and the JSON
    [Content-Type]. *)
Theorem credentials_on_every_request
    default_headers remote json_loads username password url debug st0 cs c :
  let st := run_all remote json_loads cs
              (__init__ default_headers username password url debug st0).2 in
  Forall (carries_credentials username password)
    (issued (run remote json_loads c) st).
Proof.
  intros st. eapply Forall_impl; [apply issued_headers |].
  intros req Hreq. unfold carries_credentials. rewrite Hreq.
  subst st. rewrite run_all_obj.
  destruct (init_state default_headers username password url debug st0)
    as (-> & _ & _).
  apply init_headers.
Qed.

Lemma run_same_but_logging remote json_loads c st1 st2 :
  same_but_logging st1 st2 →
  (run remote json_loads c st1).1 = (run remote json_loads c st2).1 ∧
  same_but_logging (run remote json_loads c st1).2
    (run remote json_loads c st2).2.
Proof.
  intros (Hobj & Hsent & Hcalls).
  destruct (run_cases remote json_loads c)
    as [[v Hrun] | (v & rest & data & post & _ & Hrun)]; rewrite !Hrun.
  - done.
  - unfold same_but_logging, after_request. simpl.
    by rewrite Hobj, Hsent, Hcalls.
Qed.

Lemma run_all_same_but_logging remote json_loads cs st1 st2 :
  same_but_logging st1 st2 →
  same_but_logging (run_all remote json_loads cs st1)
    (run_all remote json_loads cs st2).
Proof.
  revert st1 st2. induction cs as [|c cs IH]; intros st1 st2 H; simpl.
  - done.
  - apply IH. by apply run_same_but_logging.
Qed.

Lemma init_same_but_logging default_headers username password url st :
  same_but_logging
    (__init__ default_headers username password url true st).2
    (__init__ default_headers username password url false st).2.
Proof. done. Qed.

(** C6: two clients constructed alike but for the debug flag issue the same
    requests (method, URL, query, headers and body) and get the same outcome,
    for every public method, also after any earlier calls; the requests sent
    so far and the stored configuration agree as well. *)
Theorem debug_only_observes
    default_headers remote json_loads username password url st0 cs c :
  let loud := run_all remote json_loads cs
                (__init__ default_headers username password url true st0).2 in
  let quiet := run_all remote json_loads cs
                 (__init__ default_headers username password url false st0).2 in
  issued (run remote json_loads c) loud
    = issued (run remote json_loads c) quiet ∧
  (run remote json_loads c loud).1 = (run remote json_loads c quiet).1 ∧
  sent loud = sent quiet ∧
  obj loud = obj quiet.
Proof.
  intros loud quiet.
  assert (same_but_logging loud quiet) as Hsame.
  { apply run_all_same_but_logging, init_same_but_logging. }
  destruct (run_same_but_logging remote json_loads c _ _ Hsame)
    as (Hout & _ & Hsent' & _).
  destruct Hsame as (Hobj & Hsent & _).
  split; [| by split].
  unfold issued. by rewrite Hsent, Hsent'.
Qed.

(** ** Request bodies and the two pure helpers *)

Lemma sendpost_issued remote c e data st :
  issued (_ ← __sendpost remote (String c e) data; mret tt) st =
    [built_request (obj st) POST c e ∅ data].
Proof.
  apply issued_snoc. rewrite bind_eq.
  change (__sendpost remote (String c e) data)
    with (helper remote POST (String c e) ∅ data).
  rewrite helper_nonempty.
  destruct (remote _ _) as [r|]; [by destruct (error_status r) | done].
Qed.

(** [if b: data[k] = v], read at [k] and elsewhere. *)
Lemma lookup_cond_insert_eq (b : bool) k (v : pyval) (m : gmap string pyval) :
  (if b then <[k:=v]> m else m) !! k = if b then Some v else m !! k.
Proof. destruct b; [apply lookup_insert_eq | done]. Qed.

Lemma lookup_cond_insert_ne (b : bool) k k' (v : pyval)
    (m : gmap string pyval) :
  k ≠ k' → (if b then <[k:=v]> m else m) !! k' = m !! k'.
Proof. intros ?. destruct b; [by apply lookup_insert_ne | done]. Qed.

Lemma dom_cond_insert (b : bool) k (v : pyval) (m : gmap string pyval)
    (X : gset string) :
  k ∈ X → dom m ⊆ X → dom (if b then <[k:=v]> m else m) ⊆ X.
Proof.
  intros Hk Hm. destruct b; [| done]. rewrite dom_insert_L.
  apply union_least; [by apply singleton_subseteq_l | done].
Qed.

Ltac solve_lookup :=
  repeat first
    [ rewrite lookup_cond_insert_eq
    | rewrite lookup_cond_insert_ne by done
    | rewrite lookup_insert_eq
    | rewrite lookup_insert_ne by done
    | rewrite lookup_singleton_eq
    | rewrite lookup_singleton_ne by done ];
  done.

(** Membership in a listed set of keys. *)
Ltac in_keys :=
  first
    [ by apply elem_of_singleton_2
    | apply elem_of_union_r; by apply elem_of_singleton_2
    | apply elem_of_union_l; in_keys ].

(** The keys of a dictionary built by a literal and guarded assignments lie
    in a listed set. *)
Ltac solve_dom :=
  repeat first
    [ apply dom_cond_insert; [in_keys |]
    | rewrite dom_insert_L; apply union_least;
        [apply singleton_subseteq_l; in_keys |]
    | rewrite dom_singleton_L; apply singleton_subseteq_l; in_keys ].

(** C4: [create_customer] posts one request to [/customers] whose body is a
    dictionary that always holds the five required keys, holds each optional
    key with the argument itself when that argument is truthy and lacks it
    when the argument is falsy, and holds no other key. *)
Theorem create_customer_body remote
    primarydomain customername reference head_office_address isactive
    eu_vat_number iso_country_code admin_password billing_address contacts
    st :
  ∃ req data,
    issued (create_customer remote primarydomain customername reference
              head_office_address isactive eu_vat_number iso_country_code
              admin_password billing_address contacts) st = [req] ∧
    req_method req = POST ∧
    req_url req = url (obj st) +:+ "/customers" ∧
    req_json req = PDict data ∧
    data !! "PrimaryDomain" = Some primarydomain ∧
    data !! "Name" = Some customername ∧
    data !! "Reference" = Some reference ∧
    data !! "IsActive" = Some isactive ∧
    data !! "HeadOfficeAddress" = Some head_office_address ∧
    data !! "EUVATNumber"
      = (if truthy eu_vat_number then Some eu_vat_number else None) ∧
    data !! "IsoCountryCode"
      = (if truthy iso_country_code then Some iso_country_code else None) ∧
    data !! "AdministratorPassword"
      = (if truthy admin_password then Some admin_password else None) ∧
    data !! "BillingAddress"
      = (if truthy billing_address then Some billing_address else None) ∧
    data !! "Contacts" = (if truthy contacts then Some contacts else None) ∧
    dom data ⊆
      {[ "PrimaryDomain"; "Name"; "Reference"; "IsActive";
         "HeadOfficeAddress"; "EUVATNumber"; "IsoCountryCode";
         "AdministratorPassword"; "BillingAddress"; "Contacts" ]}.
Proof.
  unfold create_customer. eexists _, _. rewrite sendpost_issued.
  split; [reflexivity |]. simpl req_method. simpl req_url. simpl req_json.
  split; [done |]. split; [done |]. split; [reflexivity |].
  repeat split; [solve_lookup.. | solve_dom].
Qed.

(** C5: [accept_mca] posts one request to [/customers/{customer}/McaAcceptance]
    whose body holds [AgreementUrl] with the fixed agreement address, whatever
    the nine arguments are, the eight other fields with the arguments
    themselves, and no other key. *)
Theorem accept_mca_body remote
    customer dateaccepted firstname surname phone email line1 postcode
    countryid st :
  ∃ req data,
    issued (accept_mca remote customer dateaccepted firstname surname phone
              email line1 postcode countryid) st = [req] ∧
    req_method req = POST ∧
    req_url req
      = url (obj st) +:+ "/customers/" +:+ customer +:+ "/McaAcceptance" ∧
    req_json req = PDict data ∧
    data !! "AgreementUrl" = Some (PStr "https://aka.ms/customeragreement") ∧
    data !! "DateAccepted" = Some dateaccepted ∧
    data !! "FirstName" = Some firstname ∧
    data !! "Surname" = Some surname ∧
    data !! "PhoneNumber" = Some phone ∧
    data !! "EmailAddress" = Some email ∧
    data !! "AddressLine1" = Some line1 ∧
    data !! "Postcode" = Some postcode ∧
    data !! "CountryId" = Some countryid ∧
    dom data ⊆
      {[ "DateAccepted"; "FirstName"; "Surname"; "PhoneNumber";
         "EmailAddress"; "AddressLine1"; "Postcode"; "CountryId";
         "AgreementUrl" ]}.
Proof.
  unfold accept_mca. eexists _, _.
  change ("/customers/" +:+ customer +:+ "/McaAcceptance")
    with (String "/" ("customers/" +:+ customer +:+ "/McaAcceptance")).
  rewrite sendpost_issued.
  split; [reflexivity |]. simpl req_method. simpl req_url. simpl req_json.
  split; [done |]. split; [done |]. split; [reflexivity |].
  repeat split; [solve_lookup.. | solve_dom].
Qed.

(** C7: [make_address] touches neither the network nor the state and returns
    a dictionary with [Line1], [City] and [Postcode] set to the arguments,
    [Line2] present (with [line2]) exactly when [line2] is truthy, [State]
    present (with [state]) exactly when [state] is truthy, and nothing else;
    with both left at the empty string it is the three-key dictionary. *)
Theorem make_address_result line1 city postcode line2 state st :
  (make_address line1 city postcode (PStr "") (PStr "") st
     = (Return (PDict {[ "Line1" := line1; "City" := city;
                         "Postcode" := postcode ]}), st)) ∧
  ∃ data,
    make_address line1 city postcode line2 state st
      = (Return (PDict data), st) ∧
    data !! "Line1" = Some line1 ∧
    data !! "City" = Some city ∧
    data !! "Postcode" = Some postcode ∧
    data !! "Line2" = (if truthy line2 then Some line2 else None) ∧
    data !! "State" = (if truthy state then Some state else None) ∧
    dom data ⊆ {[ "Line1"; "City"; "Postcode"; "Line2"; "State" ]} ∧
    (truthy line2 = true ∧ truthy state = false →
       data = <["Line2" := line2]>
                {[ "Line1" := line1; "City" := city;
                   "Postcode" := postcode ]}) ∧
    (truthy line2 = false ∧ truthy state = true →
       data = <["State" := state]>
                {[ "Line1" := line1; "City" := city;
                   "Postcode" := postcode ]}).
Proof.
  split; [reflexivity |]. unfold make_address. eexists.
  split; [reflexivity |].
  do 5 (split; [solve_lookup |]). split; [solve_dom |].
  split; by intros [-> ->].
Qed.

Lemma make_address_result_witness :
  ∃ data,
    make_address (PStr "1 Main St") (PStr "London") (PStr "AB1 2CD")
      (PStr "Suite 5") (PStr "") fresh_state = (Return (PDict data), fresh_state) ∧
    data = <["Line2" := PStr "Suite 5"]>
             {[ "Line1" := PStr "1 Main St"; "City" := PStr "London";
                "Postcode" := PStr "AB1 2CD" ]}.
Proof.
  destruct (make_address_result (PStr "1 Main St") (PStr "London")
              (PStr "AB1 2CD") (PStr "Suite 5") (PStr "") fresh_state)
    as (_ & data & Hrun & _ & _ & _ & _ & _ & _ & Hline2 & _).
  exists data. split; [exact Hrun |]. apply Hline2. split; reflexivity.
Defined.

(** C8: [make_contact] touches neither the network nor the state and returns
    the dictionary with exactly the six contact keys set to its arguments. *)
Theorem make_contact_result
    firstname lastname email phone contacttype primary st :
  let data : gmap string pyval :=
    {[ "FirstName" := firstname; "LastName" := lastname;
       "EmailAddress" := email; "PhoneNumber" := phone;
       "ContactType" := contacttype; "IsPrimaryContact" := primary ]} in
  make_contact firstname lastname email phone contacttype primary st
    = (Return (PDict data), st) ∧
  issued (make_contact firstname lastname email phone contacttype primary) st
    = [] ∧
  data !! "FirstName" = Some firstname ∧
  data !! "LastName" = Some lastname ∧
  data !! "EmailAddress" = Some email ∧
  data !! "PhoneNumber" = Some phone ∧
  data !! "ContactType" = Some contacttype ∧
  data !! "IsPrimaryContact" = Some primary ∧
  dom data =
    {[ "FirstName"; "LastName"; "EmailAddress"; "PhoneNumber";
       "ContactType"; "IsPrimaryContact" ]}.
Proof.
  intros data. split; [reflexivity |]. split; [by apply issued_nil |].
  subst data. do 6 (split; [solve_lookup |]).
  rewrite !dom_insert_L, dom_singleton_L. set_solver.
Qed.

(** ** Examples *)

(** A 200 answer to [GET /Customers] is decoded and returned. *)
Example get_all_customers_ok :
  let st := started "u" "p" false in
  (get_all_customers
     (constant_remote {| status_code := 200; text := "[1, 2]" |})
     toy_json_loads st).1 = Return (PList [PInt 1; PInt 2]) ∧
  req_url <$> issued
     (get_all_customers
        (constant_remote {| status_code := 200; text := "[1, 2]" |})
        toy_json_loads) st
    = ["https://api.cascadeportal.com/Customers"].
Proof. by vm_compute. Qed.

(** A 2xx answer that is not JSON raises the decoding error, not
    [HTTPError]. *)
Example get_customer_not_json :
  (get_customer (constant_remote {| status_code := 200; text := "oops" |})
     toy_json_loads "x.com" (started "u" "p" false)).1
    = Raise JSONDecodeError.
Proof. by vm_compute. Qed.

(** An endpoint without the leading slash gets one, on each helper. *)
Example helpers_prepend_slash :
  ∀ v, req_url <$> issued
         (helper (constant_remote not_found) v "customers" ∅ PNone)
         (started "u" "p" false)
       = ["https://api.cascadeportal.com/customers"].
Proof. intros []; by vm_compute. Qed.

(** The address of the specification's example. *)
Example make_address_main_st :
  (make_address (PStr "1 Main St") (PStr "London") (PStr "AB1 2CD")
     (PStr "") (PStr "") fresh_state).1
    = Return (PDict {[ "Line1" := PStr "1 Main St";
                       "City" := PStr "London";
                       "Postcode" := PStr "AB1 2CD" ]}).
Proof. reflexivity. Qed.

(** With debugging on, construction switches the process-wide logging. *)
Example init_debug_logging :
  logging (started "u" "p" true)
    = {| http_debuglevel := 1; root_configured := true; root_level := 10;
         requests_log_level := 10; requests_log_propagate := true |} ∧
  logging (started "u" "p" false) = quiet_logging.
Proof. by split. Qed.

(** ** What every public method sends, and what it makes of the answer *)

(** The method, endpoint and body of a network method depend on the call
    alone; the portal and the decoder only enter the outcome. *)
Lemma run_wire c :
  is_pure c = false →
  ∃ v rest data,
    (is_get c = true → v = GET) ∧
    (is_get c = false → v ≠ GET) ∧
    (v ≠ POST → data = PNone) ∧
    ∀ remote json_loads st,
      run remote json_loads c st =
        (outcome (finish json_loads c)
           (remote (sent st) (built_request (obj st) v "/" rest ∅ data)),
         after_request st v rest data).
Proof.
  destruct c; simpl; intros Hpure; try discriminate Hpure;
    first
      [ eexists GET, _, PNone; (split; [| split; [| split]]);
        only 4: (intros remote json_loads st; apply sendget_slash); done
      | eexists POST, _, _; (split; [| split; [| split]]);
        only 4: (intros remote json_loads st; apply sendpost_slash); done
      | eexists DELETE, _, PNone; (split; [| split; [| split]]);
        only 4: (intros remote json_loads st; apply senddelete_slash); done ].
Qed.

Lemma after_request_issued {A} (m : M A) st v rest data :
  (m st).2 = after_request st v rest data →
  issued m st = [built_request (obj st) v "/" rest ∅ data].
Proof. intros H. apply issued_snoc. by rewrite H. Qed.

Lemma run_answer remote json_loads c st req :
  is_pure c = false →
  issued (run remote json_loads c) st = [req] →
  (run remote json_loads c st).1
    = outcome (finish json_loads c) (remote (sent st) req).
Proof.
  intros Hpure.
  destruct (run_wire c Hpure) as (v & rest & data & _ & _ & _ & Hrun).
  rewrite (after_request_issued _ st v rest data) by (by rewrite Hrun).
  intros [= <-]. by rewrite Hrun.
Qed.

Lemma is_get_not_pure c : is_get c = true → is_pure c = false.
Proof. by destruct c. Qed.

(** X2: a GET method checks the status before it decodes: an answer with a
    status in 400..599 raises [HTTPError] with that answer whatever its body
    is, any other answer yields the decoded body, and raises the decoding
    error when the body is not JSON. *)
Theorem get_methods_outcome remote json_loads c st req r :
  is_get c = true →
  issued (run remote json_loads c) st = [req] →
  remote (sent st) req = Some r →
  let out := (run remote json_loads c st).1 in
  (400 ≤ status_code r < 600 → out = Raise (HTTPError r)) ∧
  (¬ 400 ≤ status_code r < 600 →
     out = match json_loads (text r) with
           | Some v => Return v
           | None => Raise JSONDecodeError
           end).
Proof.
  intros Hget Hreq Hr out. subst out.
  rewrite (run_answer _ _ _ _ req) by (by auto using is_get_not_pure).
  rewrite Hr. unfold outcome, finish, decoded. rewrite Hget.
  pose proof (error_status_spec r) as Hs.
  destruct (error_status r).
  - split; [done |]. intros Hn. destruct Hn. by apply Hs.
  - split; [| done]. intros Herr%Hs. done.
Qed.

Lemma get_methods_outcome_witness :
  let st := started "u" "p" false in
  (run (constant_remote server_error) toy_json_loads
     (GetCustomerSubscription "x.com" "CODE") st).1
    = Raise (HTTPError server_error).
Proof.
  intros st.
  refine (proj1 (get_methods_outcome (constant_remote server_error)
                   toy_json_loads (GetCustomerSubscription "x.com" "CODE") st
                   (built_request (obj st) GET "/"
                      "customers/x.com/subscriptions/CODE" ∅ PNone)
                   server_error _ _ _) _).
  - reflexivity.
  - vm_compute. reflexivity.
  - reflexivity.
  - simpl. lia.
Defined.

(** X3: a POST or DELETE method never reads the body of the answer: with a
    status outside 400..599 it returns [None], with one inside it raises
    [HTTPError] with the answer. *)
Theorem write_methods_outcome remote json_loads c st req r :
  is_pure c = false →
  is_get c = false →
  issued (run remote json_loads c) st = [req] →
  remote (sent st) req = Some r →
  let out := (run remote json_loads c st).1 in
  (400 ≤ status_code r < 600 → out = Raise (HTTPError r)) ∧
  (¬ 400 ≤ status_code r < 600 → out = Return PNone) ∧
  out ≠ Raise JSONDecodeError.
Proof.
  intros Hpure Hget Hreq Hr out. subst out.
  rewrite (run_answer _ _ _ _ req) by done.
  rewrite Hr. unfold outcome, finish. rewrite Hget.
  pose proof (error_status_spec r) as Hs.
  destruct (error_status r).
  - split; [done |]. split; [| done]. intros Hn. destruct Hn. by apply Hs.
  - split; [| done]. intros Herr%Hs. done.
Qed.

Lemma write_methods_outcome_witness :
  let st := started "u" "p" false in
  (run (constant_remote ok_text) toy_json_loads
     (CreateTenant "x.com" "xcom") st).1 = Return PNone.
Proof.
  intros st.
  refine (proj1 (proj2 (write_methods_outcome (constant_remote ok_text)
                   toy_json_loads (CreateTenant "x.com" "xcom") st
                   (built_request (obj st) POST "/"
                      "customers/x.com/MicrosoftTenant/xcom.onmicrosoft.com"
                      ∅ PNone)
                   ok_text _ _ _ _)) _).
  - reflexivity.
  - reflexivity.
  - vm_compute. reflexivity.
  - reflexivity.
  - simpl. lia.
Defined.

(** X4: when no response arrives, a network method raises the transport's
    error; the request has been handed over once and is not repeated. *)
Theorem no_response_raises remote json_loads c st req :
  issued (run remote json_loads c) st = [req] →
  remote (sent st) req = None →
  (run remote json_loads c st).1 = Raise ConnectionError ∧
  sent (run remote json_loads c st).2 = sent st ++ [req].
Proof.
  intros Hreq Hr.
  destruct (is_pure c) eqn:Hpure.
  - destruct (run_pure remote json_loads c Hpure) as [v Hrun].
    rewrite issued_nil in Hreq; [done | by rewrite Hrun].
  - rewrite (run_answer _ _ _ _ req), Hr by done. split; [done |].
    destruct (run_wire c Hpure) as (v & rest & data & _ & _ & _ & Hrun).
    rewrite (after_request_issued _ st v rest data) in Hreq
      by (by rewrite Hrun).
    injection Hreq as <-. by rewrite Hrun.
Qed.

Lemma no_response_raises_witness :
  let st := started "u" "p" false in
  (run silent_remote toy_json_loads GetAllCustomers st).1
    = Raise ConnectionError.
Proof.
  intros st.
  refine (proj1 (no_response_raises silent_remote toy_json_loads
                   GetAllCustomers st
                   (built_request (obj st) GET "/" "Customers" ∅ PNone)
                   _ _)).
  - vm_compute. reflexivity.
  - reflexivity.
Defined.

(** X7: no public method sends query parameters, only POST requests carry a
    body, and the request is a GET exactly for the seven reading methods. *)
Theorem public_request_shape remote json_loads c st :
  Forall (λ req,
            req_params req = ∅ ∧
            (req_method req ≠ POST → req_json req = PNone) ∧
            (req_method req = GET ↔ is_get c = true))
    (issued (run remote json_loads c) st).
Proof.
  destruct (is_pure c) eqn:Hpure.
  - destruct (run_pure remote json_loads c Hpure) as [v Hrun].
    rewrite issued_nil; [constructor | by rewrite Hrun].
  - destruct (run_wire c Hpure)
      as (v & rest & data & Hget & Hnot & Hbody & Hrun).
    rewrite (after_request_issued _ st v rest data) by (by rewrite Hrun).
    constructor; [| constructor]. simpl.
    split; [by destruct v |]. split.
    + intros Hv. destruct v; [done | by destruct Hv | done].
    + destruct (is_get c).
      * split; [done | intros _; by apply Hget].
      * split; [intros ->; by destruct Hnot | done].
Qed.

(** ** Resources and their URLs *)

Lemma get_issued remote json_loads rest st :
  issued (r ← __sendget remote (String "/" rest) ∅; json json_loads r) st
    = [built_request (obj st) GET "/" rest ∅ PNone].
Proof.
  apply after_request_issued.
  exact (f_equal snd (sendget_slash remote json_loads rest st)).
Qed.

Lemma post_issued remote rest data st :
  issued (returning_none
            (_ ← __sendpost remote (String "/" rest) data; mret tt)) st
    = [built_request (obj st) POST "/" rest ∅ data].
Proof.
  apply after_request_issued.
  exact (f_equal snd (sendpost_slash remote rest data st)).
Qed.

Lemma delete_issued remote rest st :
  issued (returning_none
            (_ ← __senddelete remote (String "/" rest); mret tt)) st
    = [built_request (obj st) DELETE "/" rest ∅ PNone].
Proof.
  apply after_request_issued.
  exact (f_equal snd (senddelete_slash remote rest st)).
Qed.

(** X8: reading, submitting and aborting the cancellation request of one
    subscription address the same URL, with GET, POST and DELETE; only the
    submission carries a body, the one-key dictionary with the date. *)
Theorem cancellation_requests_share_url
    remote json_loads customer productcode daterequested st :
  let target := url (obj st) +:+ "/customers/" +:+ customer
                  +:+ "/subscriptions/" +:+ productcode
                  +:+ "/cancellation-request" in
  let line := λ req, (req_method req, req_url req, req_json req) in
  line <$> issued (run remote json_loads
                     (GetCancellationRequest customer productcode)) st
    = [(GET, target, PNone)] ∧
  line <$> issued (run remote json_loads
                     (SubmitCancellationRequest customer productcode
                        daterequested)) st
    = [(POST, target,
        PDict {[ "CancellationDateRequested" := daterequested ]})] ∧
  line <$> issued (run remote json_loads
                     (AbortCancellationRequest customer productcode)) st
    = [(DELETE, target, PNone)].
Proof.
  intros target line. subst target line. simpl run.
  split; [| split].
  - unfold get_cancellation_request.
    change ("/customers/" +:+ ?x) with (String "/" ("customers/" +:+ x)).
    by rewrite get_issued.
  - unfold submit_cancellation_request.
    change ("/customers/" +:+ ?x) with (String "/" ("customers/" +:+ x)).
    by rewrite post_issued.
  - unfold abort_cancellation_request.
    change ("/customers/" +:+ ?x) with (String "/" ("customers/" +:+ x)).
    by rewrite delete_issued.
Qed.

(** X9: reading a subscription, changing its quantity and upgrading it all
    address the same URL; the two changes are POSTs that differ only in their
    one-key body, [Quantity] for the one and [ProductCode] for the other. *)
Theorem subscription_requests_share_url
    remote json_loads customer productcode newqty newproductcode st :
  let target := url (obj st) +:+ "/customers/" +:+ customer
                  +:+ "/subscriptions/" +:+ productcode in
  let line := λ req, (req_method req, req_url req, req_json req) in
  line <$> issued (run remote json_loads
                     (GetCustomerSubscription customer productcode)) st
    = [(GET, target, PNone)] ∧
  line <$> issued (run remote json_loads
                     (UpdateSubscription customer productcode newqty)) st
    = [(POST, target, PDict {[ "Quantity" := newqty ]})] ∧
  line <$> issued (run remote json_loads
                     (UpgradeSubscription customer productcode
                        newproductcode)) st
    = [(POST, target, PDict {[ "ProductCode" := newproductcode ]})].
Proof.
  intros target line. subst target line. simpl run.
  split; [| split].
  - unfold get_customer_subscription.
    change ("/customers/" +:+ ?x) with (String "/" ("customers/" +:+ x)).
    by rewrite get_issued.
  - unfold update_subscription.
    change ("/customers/" +:+ ?x) with (String "/" ("customers/" +:+ x)).
    by rewrite post_issued.
  - unfold upgrade_subscription.
    change ("/customers/" +:+ ?x) with (String "/" ("customers/" +:+ x)).
    by rewrite post_issued.
Qed.

(** X10: the tenant of a customer is created by a POST without a body to an
    URL that ends in the tenant name followed by [.onmicrosoft.com], and read
    by a GET to the sibling [MicrosoftTenantAssociation]. *)
Theorem tenant_requests
    remote json_loads customer tenantid st :
  let line := λ req, (req_method req, req_url req, req_json req) in
  line <$> issued (run remote json_loads (CreateTenant customer tenantid)) st
    = [(POST,
        url (obj st) +:+ "/customers/" +:+ customer +:+ "/MicrosoftTenant/"
          +:+ tenantid +:+ ".onmicrosoft.com",
        PNone)] ∧
  line <$> issued (run remote json_loads (GetCustomerTenant customer)) st
    = [(GET,
        url (obj st) +:+ "/customers/" +:+ customer
          +:+ "/MicrosoftTenantAssociation",
        PNone)].
Proof.
  intros line. subst line. simpl run. split.
  - unfold create_tenant.
    change ("/customers/" +:+ ?x) with (String "/" ("customers/" +:+ x)).
    by rewrite post_issued.
  - unfold get_customer_tenant.
    change ("/customers/" +:+ ?x) with (String "/" ("customers/" +:+ x)).
    by rewrite get_issued.
Qed.

(** ** Construction and the process-wide logging *)

Lemma run_logging remote json_loads c st :
  logging (run remote json_loads c st).2 = logging st.
Proof.
  destruct (run_cases remote json_loads c)
    as [[v Hrun] | (v & rest & data & post & _ & Hrun)]; by rewrite Hrun.
Qed.

Lemma run_all_logging remote json_loads cs st :
  logging (run_all remote json_loads cs st) = logging st.
Proof.
  revert st. induction cs as [|c cs IH]; intros st; simpl; [done |].
  by rewrite IH, run_logging.
Qed.

Lemma init_logging default_headers username password base debug st :
  logging (__init__ default_headers username password base debug st).2
    = if debug then debug_logging else logging st.
Proof. by destruct debug. Qed.

(** X11: debugging is switched on for the whole process and never off: once
    a client has been constructed with [debug], the debug configuration
    survives every public call and every later construction without
    [debug]; and a construction without [debug] in a quiet process leaves it
    quiet. *)
Theorem debug_logging_persists
    default_headers remote json_loads
    username1 password1 url1 username2 password2 url2 cs1 cs2 st :
  let st1 := run_all remote json_loads cs1
               (__init__ default_headers username1 password1 url1 true st).2 in
  let st2 := run_all remote json_loads cs2
               (__init__ default_headers username2 password2 url2 false
                  st1).2 in
  logging st1 = debug_logging ∧
  logging st2 = debug_logging ∧
  logging (run_all remote json_loads cs1
             (__init__ default_headers username1 password1 url1 false st).2)
    = logging st.
Proof.
  intros st1 st2. subst st1 st2.
  by rewrite ?run_all_logging, ?init_logging, ?run_all_logging, ?init_logging.
Qed.

(** X12: construction sends nothing and cannot fail; it stores the URL it is
    given and, beside the three headers it sets, keeps every default header
    of the fresh session. *)
Theorem init_keeps_other_defaults
    default_headers username password base debug st key :
  lower key ≠ "x-username" →
  lower key ≠ "x-password" →
  lower key ≠ "content-type" →
  let out := __init__ default_headers username password base debug st in
  out.1 = Return tt ∧
  sent out.2 = sent st ∧
  url (obj out.2) = base ∧
  CaseInsensitiveDict.get key (headers (session (obj out.2)))
    = CaseInsensitiveDict.get key default_headers.
Proof.
  intros Hu Hp Hc out. subst out.
  destruct (init_state default_headers username password base debug st)
    as (Hobj & Hsent & _).
  split; [by destruct debug |]. split; [done |]. rewrite Hobj. simpl.
  split; [done |].
  unfold CaseInsensitiveDict.get, CaseInsensitiveDict.update1,
    CaseInsensitiveDict.setitem.
  change (lower "X-Username") with "x-username".
  change (lower "X-Password") with "x-password".
  change (lower "Content-Type") with "content-type".
  by rewrite !lookup_insert_ne by done.
Qed.

Lemma init_keeps_other_defaults_witness :
  CaseInsensitiveDict.get "user-agent"
    (headers (session (obj
       (__init__ some_defaults "u" "p" default_url true fresh_state).2)))
    = CaseInsensitiveDict.get "user-agent" some_defaults.
Proof.
  refine (proj2 (proj2 (proj2
    (init_keeps_other_defaults some_defaults "u" "p" default_url true
       fresh_state "user-agent" _ _ _)))).
  - vm_compute. discriminate.
  - vm_compute. discriminate.
  - vm_compute. discriminate.
Defined.

(** ** Normalisation of a non-empty endpoint *)

(** X13: on a non-empty endpoint each helper requests the base URL followed
    by the endpoint, with one slash put in front when it has none; calling
    the helper with the endpoint already normalised sends the same request
    and has the same outcome. *)
Theorem helper_normalises remote v endpoint params data st :
  endpoint ≠ "" →
  let path := if starts_with_slash endpoint then endpoint
              else "/" +:+ endpoint in
  req_url <$> issued (helper remote v endpoint params data) st
    = [url (obj st) +:+ path] ∧
  issued (helper remote v path params data) st
    = issued (helper remote v endpoint params data) st ∧
  (helper remote v path params data st).1
    = (helper remote v endpoint params data st).1.
Proof.
  destruct endpoint as [|c e]; [done |]. intros _. simpl starts_with_slash.
  destruct (Ascii.eqb c "/") eqn:Hc; intros path; subst path.
  - rewrite helper_issued. simpl. by rewrite Hc.
  - change ("/" +:+ String c e) with (String "/" (String c e)).
    rewrite !helper_issued, !helper_nonempty.
    assert (built_request (obj st) v "/" (String c e) params data
              = built_request (obj st) v c e params data) as ->
      by (unfold built_request; simpl; by rewrite Hc).
    split; [simpl; by rewrite Hc |]. split; [done |].
    destruct (remote _ _) as [r|]; [by destruct (error_status r) | done].
Qed.

Lemma helper_normalises_witness :
  req_url <$> issued
    (helper (constant_remote ok_text) POST "customers" ∅ PNone)
    (started "u" "p" false)
    = ["https://api.cascadeportal.com/customers"].
Proof.
  refine (proj1 (helper_normalises (constant_remote ok_text) POST "customers"
                   ∅ PNone (started "u" "p" false) _)).
  discriminate.
Defined.

(** ** Addresses and contacts in a new customer *)

Lemma truthy_dict_lookup (d : gmap string pyval) k v :
  d !! k = Some v → truthy (PDict d) = true.
Proof.
  intros Hk. simpl. apply negb_true_iff, Nat.eqb_neq.
  apply map_size_ne_0_lookup. by exists k, v.
Qed.

(** X14: what [make_address] and [make_contact] return is never falsy, so a
    billing address built by [make_address] is always sent under
    [BillingAddress], and a list that starts with a contact built by
    [make_contact] always under [Contacts]. *)
Theorem built_address_is_sent remote
    line1 city postcode line2 state
    firstname lastname email phone contacttype primary others
    primarydomain customername reference head_office_address isactive
    eu_vat_number iso_country_code admin_password st :
  ∃ addr contact req data,
    make_address line1 city postcode line2 state st = (Return addr, st) ∧
    make_contact firstname lastname email phone contacttype primary st
      = (Return contact, st) ∧
    truthy addr = true ∧
    truthy contact = true ∧
    issued (create_customer remote primarydomain customername reference
              head_office_address isactive eu_vat_number iso_country_code
              admin_password addr (PList (contact :: others))) st = [req] ∧
    req_json req = PDict data ∧
    data !! "BillingAddress" = Some addr ∧
    data !! "Contacts" = Some (PList (contact :: others)).
Proof.
  unfold make_address, make_contact, create_customer.
  eexists _, _, _, _.
  split; [reflexivity |]. split; [reflexivity |].
  match goal with
  | |- truthy ?a = true ∧ _ =>
      assert (truthy a = true) as Haddr
        by (apply (truthy_dict_lookup _ "Line1" line1); solve_lookup)
  end.
  split; [exact Haddr |].
  split; [apply (truthy_dict_lookup _ "FirstName" firstname); solve_lookup |].
  rewrite sendpost_issued. split; [reflexivity |]. split; [reflexivity |].
  split.
  - rewrite lookup_cond_insert_ne by done.
    by rewrite lookup_cond_insert_eq, Haddr.
  - by rewrite lookup_cond_insert_eq.
Qed.

(** ** The remaining resources *)

(** X16: listing the subscriptions of a customer and creating one address
    the same URL; the creation posts its argument as the body, unchanged. *)
Theorem subscriptions_collection_requests
    remote json_loads customer productinformation st :
  let target := url (obj st) +:+ "/customers/" +:+ customer
                  +:+ "/subscriptions" in
  let line := λ req, (req_method req, req_url req, req_json req) in
  line <$> issued (run remote json_loads
                     (GetCustomerSubscriptions customer)) st
    = [(GET, target, PNone)] ∧
  line <$> issued (run remote json_loads
                     (CreateSubscription customer productinformation)) st
    = [(POST, target, productinformation)].
Proof.
  intros target line. subst target line. simpl run. split.
  - unfold get_customer_subscriptions.
    change ("/customers/" +:+ ?x) with (String "/" ("customers/" +:+ x)).
    by rewrite get_issued.
  - unfold create_subscription.
    change ("/customers/" +:+ ?x) with (String "/" ("customers/" +:+ x)).
    by rewrite post_issued.
Qed.

(** X17: reading the agreement acceptance of a customer and accepting the
    agreement address the same URL, the first with GET and no body, the
    second with POST. *)
Theorem mca_requests_share_url
    remote json_loads customer dateaccepted firstname surname phone email
    line1 postcode countryid st :
  let target := url (obj st) +:+ "/customers/" +:+ customer
                  +:+ "/McaAcceptance" in
  let line := λ req, (req_method req, req_url req) in
  (λ req, (req_method req, req_url req, req_json req))
    <$> issued (run remote json_loads (GetCustomerMca customer)) st
    = [(GET, target, PNone)] ∧
  line <$> issued (run remote json_loads
                     (AcceptMca customer dateaccepted firstname surname
                        phone email line1 postcode countryid)) st
    = [(POST, target)].
Proof.
  intros target line. subst target line. simpl run. split.
  - unfold get_customer_mca.
    change ("/customers/" +:+ ?x) with (String "/" ("customers/" +:+ x)).
    by rewrite get_issued.
  - unfold accept_mca.
    change ("/customers/" +:+ ?x) with (String "/" ("customers/" +:+ x)).
    by rewrite post_issued.
Qed.

(** X18: the list of customers is read from [/Customers] and one customer
    from the path below it, both with a capital letter, while a customer is
    created at [/customers]: whatever the base URL, creation does not address
    the URL the list is read from. *)
Theorem customer_requests
    remote json_loads domain primarydomain customername reference
    head_office_address isactive eu_vat_number iso_country_code
    admin_password billing_address contacts st :
  let line := λ req, (req_method req, req_url req) in
  line <$> issued (run remote json_loads GetAllCustomers) st
    = [(GET, url (obj st) +:+ "/Customers")] ∧
  line <$> issued (run remote json_loads (GetCustomer domain)) st
    = [(GET, url (obj st) +:+ "/Customers" +:+ "/" +:+ domain)] ∧
  line <$> issued (run remote json_loads
                     (CreateCustomer primarydomain customername reference
                        head_office_address isactive eu_vat_number
                        iso_country_code admin_password billing_address
                        contacts)) st
    = [(POST, url (obj st) +:+ "/customers")] ∧
  url (obj st) +:+ "/customers" ≠ url (obj st) +:+ "/Customers".
Proof.
  intros line. subst line. simpl run. split; [| split; [| split]].
  - unfold get_all_customers. by rewrite get_issued.
  - unfold get_customer.
    change ("/Customers/" +:+ ?x) with (String "/" ("Customers/" +:+ x)).
    by rewrite get_issued.
  - unfold create_customer. by rewrite post_issued.
  - induction (url (obj st)) as [|a base IH]; simpl; [done |].
    intros [= H]. by apply IH.
Qed.
